(** * MongoDBWrapper (src/DataStore.ts): a shallow embedding and its properties

    The wrapper class forwards every operation to the MongoDB Node.js
    driver.  The driver is not part of the repository, so it is an
    injected capability here: a function that answers each request the
    wrapper sends it, threading a state of its own.  Every wrapper method is
    a computation in a small writer/state/error monad whose log lists the
    driver requests the method issued, in program order. *)

From stdpp Require Import gmap strings list fin_maps.

Set Default Proof Using "Type".

(** ** Data *)

(** A JavaScript value as far as the wrapper is concerned.  The wrapper
    never computes with numbers; it only carries them, so a [number] is
    kept as an integer. *)
#[local] Unset Elimination Schemes.
Inductive value : Type :=
  | VUndefined
  | VNull
  | VBool (b : bool)
  | VNum (n : Z)
  | VStr (s : string)
  | VObjectId (n : N)
  | VArr (items : list value)
  | VObj (fields : list (string * value)).
#[local] Set Elimination Schemes.

(** [Document], [Filter<T>], [UpdateFilter<T>]: plain objects, i.e. finite
    maps from property names to values.  [Sort] is a value of several
    possible shapes. *)
Abbreviation Document := (gmap string value).
Abbreviation Filter := (gmap string value).
Abbreviation UpdateFilter := (gmap string value).
Abbreviation Sort := value.

(** [type DataStoreConfig = { url: string; dbName: string }] *)
Record DataStoreConfig : Type := {
  url : string;
  dbName : string;
}.

(** [type QueryOptions<T>]: every property is optional.  The properties are
    prefixed with [qo_] because [filter] is a function of the list library. *)
Record QueryOptions : Type := {
  qo_filter : option Filter;
  qo_skip : option Z;
  qo_limit : option Z;
  qo_sort : option Sort;
  qo_projection : option Document;
}.

(** The driver's [FindOptions], restricted to the properties the wrapper
    sets. *)
Record FindOptions : Type := {
  fo_skip : option Z;
  fo_limit : option Z;
  fo_sort : option Sort;
  fo_projection : option Document;
}.

(** Opaque driver handles. *)
Definition MongoClient : Type := nat.
Definition Db : Type := nat.
Definition Collection : Type := nat.
Definition ClientSession : Type := nat.

(** [InsertOneResult] and [InsertManyResult] of the driver.  [insertedIds]
    is an object indexed by position. *)
Record InsertOneResult : Type := {
  io_acknowledged : bool;
  insertedId : value;
}.

Record InsertManyResult : Type := {
  im_acknowledged : bool;
  insertedCount : Z;
  insertedIds : gmap nat value;
}.

(** [obj[index]] on an index-keyed object: a missing key reads as
    [undefined]. *)
Definition js_index (o : gmap nat value) (index : nat) : value :=
  default VUndefined (o !! index).

(** ** The driver as an injected capability *)

(** The requests the wrapper sends to the driver, indexed by the type of
    the answer.  [FindToArray] stands for [collection.find(..).toArray()],
    the cursor in between never being used for anything else.  The update
    and delete requests answer [unit] because the wrapper drops what the
    driver returns for them. *)
Inductive request : Type -> Type :=
  | NewMongoClient (u : string) : request MongoClient
  | ClientDb (c : MongoClient) (name : string) : request Db
  | ClientConnect (c : MongoClient) : request unit
  | ClientClose (c : MongoClient) : request unit
  | StartSession (c : MongoClient) : request ClientSession
  | StartTransaction (s : ClientSession) : request unit
  | CommitTransaction (s : ClientSession) : request unit
  | AbortTransaction (s : ClientSession) : request unit
  | EndSession (s : ClientSession) : request unit
  | DbCollection (d : Db) (name : string) : request Collection
  | InsertOne (c : Collection) (doc : Document) : request InsertOneResult
  | InsertMany (c : Collection) (docs : list Document) : request InsertManyResult
  | UpdateOne (c : Collection) (f : Filter) (u : UpdateFilter) : request unit
  | UpdateMany (c : Collection) (f : Filter) (u : UpdateFilter) : request unit
  | FindOne (c : Collection) (f : Filter) (o : FindOptions) : request (option Document)
  | FindToArray (c : Collection) (f : Filter) (o : FindOptions) : request (list Document)
  | DeleteOne (c : Collection) (f : Filter) : request unit
  | DeleteMany (c : Collection) (f : Filter) : request unit
  | CountDocuments (c : Collection) (f : Filter) : request Z.

(** How a JavaScript call completes: normally with a value, or abruptly
    with a thrown value (a rejected promise, once awaited). *)
Inductive result (E A : Type) : Type :=
  | Ok (a : A)
  | Throw (e : E).
Arguments Ok {E A} a.
Arguments Throw {E A} e.

(** What a method did, in program order: a driver request, a call of the
    function handed to [executeInTransaction], or a [console.error]. *)
Inductive event (E : Type) : Type :=
  | Drv {T : Type} (r : request T)
  | Func (s : ClientSession)
  | ConsoleError (msg : string) (error : E).
Arguments Drv {E T} r.
Arguments Func {E} s.
Arguments ConsoleError {E} msg error.

(** A driver over a state [D] answers every request, possibly by throwing a
    value of type [E], and moves to a new state. *)
Definition Driver (D E : Type) : Type :=
  forall T : Type, request T -> D -> D * result E T.

(** The function handed to [executeInTransaction]: it receives the session
    and acts on the driver's state. *)
Definition TxFunc (D E T : Type) : Type :=
  ClientSession -> D -> D * result E T.

(** ** The monad of wrapper methods *)

Definition M (D E A : Type) : Type := D -> list (event E) * D * result E A.

Section Monad.
Context {D E : Type}.

Definition ret {A} (a : A) : M D E A := fun d => ([], d, Ok a).

Definition throw {A} (e : E) : M D E A := fun d => ([], d, Throw e).

Definition bind {A B} (m : M D E A) (k : A -> M D E B) : M D E B :=
  fun d =>
    match m d with
    | (l1, d1, Ok a) => let '(l2, d2, r) := k a d1 in (l1 ++ l2, d2, r)
    | (l1, d1, Throw e) => (l1, d1, Throw e)
    end.

(** [try { body } catch (error) { handler }] *)
Definition try_catch {A} (body : M D E A) (handler : E -> M D E A) : M D E A :=
  fun d =>
    match body d with
    | (l1, d1, Ok a) => (l1, d1, Ok a)
    | (l1, d1, Throw e) => let '(l2, d2, r) := handler e d1 in (l1 ++ l2, d2, r)
    end.

(** [try { body } finally { fin }]: the finaliser always runs; when it
    completes normally the completion of [body] stands, when it throws its
    own throw replaces it. *)
Definition try_finally {A} (body : M D E A) (fin : M D E unit) : M D E A :=
  fun d =>
    let '(l1, d1, r) := body d in
    match fin d1 with
    | (l2, d2, Ok _) => (l1 ++ l2, d2, r)
    | (l2, d2, Throw e) => (l1 ++ l2, d2, Throw e)
    end.

(** A driver call whose answer is used ([await]ed where it is a promise). *)
Definition call (drv : Driver D E) {T} (r : request T) : M D E T :=
  fun d => let '(d1, x) := drv T r d in ([Drv r], d1, x).

(** A driver call whose promise is dropped: the call is made, its outcome
    is not observed. *)
Definition call_detached (drv : Driver D E) {T} (r : request T) : M D E unit :=
  fun d => let '(d1, _) := drv T r d in ([Drv r], d1, Ok tt).

(** [await func(session)] *)
Definition call_func {T} (func : TxFunc D E T) (s : ClientSession) : M D E T :=
  fun d => let '(d1, x) := func s d in ([Func s], d1, x).

(** [console.error(msg, error)] *)
Definition console_error (msg : string) (error : E) : M D E unit :=
  fun d => ([ConsoleError msg error], d, Ok tt).

(** Projections of a run. *)
Definition events {A} (m : M D E A) (d : D) : list (event E) := (m d).1.1.
Definition final {A} (m : M D E A) (d : D) : D := (m d).1.2.
Definition outcome {A} (m : M D E A) (d : D) : result E A := (m d).2.
End Monad.

Notation "x <- m ;; k" := (bind m (fun x => k))
  (at level 100, m at next level, right associativity, only parsing).
Notation "m ;;; k" := (bind m (fun _ => k))
  (at level 100, right associativity, only parsing).

(** ** The wrapper class *)

(** An instance: the [config] parameter property and the two private
    fields. *)
Record MongoDBWrapper : Type := {
  config : DataStoreConfig;
  client : MongoClient;
  db : Db;
}.

(** [query.filter || {}]: a filter object is truthy whatever it holds, so
    the right operand is taken exactly when the property is missing. *)
Definition filter_or_empty (query : QueryOptions) : Filter :=
  match qo_filter query with
  | Some f => f
  | None => ∅
  end.

Section Methods.
Context {D E : Type} (drv : Driver D E).

Definition constructor (cfg : DataStoreConfig) : M D E MongoDBWrapper :=
  c <- call drv (NewMongoClient (url cfg));;
  d <- call drv (ClientDb c (dbName cfg));;
  ret {| config := cfg; client := c; db := d |}.

Definition connect (this : MongoDBWrapper) : M D E unit :=
  try_catch
    (call drv (ClientConnect (client this)))
    (fun error =>
       console_error "Failed to connect to MongoDB" error;;;
       throw error).

Definition disconnect (this : MongoDBWrapper) : M D E unit :=
  try_catch
    (call drv (ClientClose (client this)))
    (fun error =>
       console_error "Failed to disconnect from MongoDB" error;;;
       throw error).

Definition executeInTransaction {T} (this : MongoDBWrapper)
    (func : TxFunc D E T) : M D E T :=
  session <- call drv (StartSession (client this));;
  try_finally
    (try_catch
       (call drv (StartTransaction session);;;
        result <- call_func func session;;
        call drv (CommitTransaction session);;;
        ret result)
       (fun error =>
          call drv (AbortTransaction session);;;
          throw error))
    (call_detached drv (EndSession session)).

Definition getCollection (this : MongoDBWrapper) (name : string) : M D E Collection :=
  call drv (DbCollection (db this) name).

(** The driver may write the identifier it assigned into the document it
    is handed.  The object literal sets [_id] after the spread, so the
    result is the same map whether or not that write took place. *)
Definition insertOne (this : MongoDBWrapper) (collectionName : string)
    (doc : Document) : M D E Document :=
  collection <- getCollection this collectionName;;
  result <- call drv (InsertOne collection doc);;
  ret (<["_id" := insertedId result]> doc).

Definition insertMany (this : MongoDBWrapper) (collectionName : string)
    (docs : list Document) : M D E (list Document) :=
  collection <- getCollection this collectionName;;
  result <- call drv (InsertMany collection docs);;
  ret (imap (fun index doc => <["_id" := js_index (insertedIds result) index]> doc) docs).

Definition updateOne (this : MongoDBWrapper) (collectionName : string)
    (query : QueryOptions) (update : UpdateFilter) : M D E unit :=
  collection <- getCollection this collectionName;;
  call drv (UpdateOne collection (filter_or_empty query) update).

Definition updateMany (this : MongoDBWrapper) (collectionName : string)
    (query : QueryOptions) (update : UpdateFilter) : M D E unit :=
  collection <- getCollection this collectionName;;
  call drv (UpdateMany collection (filter_or_empty query) update).

Definition findOne (this : MongoDBWrapper) (collectionName : string)
    (query : QueryOptions) : M D E (option Document) :=
  collection <- getCollection this collectionName;;
  let options := {| fo_skip := qo_skip query;
                    fo_limit := None;
                    fo_sort := qo_sort query;
                    fo_projection := qo_projection query |} in
  call drv (FindOne collection (filter_or_empty query) options).

Definition find (this : MongoDBWrapper) (collectionName : string)
    (query : QueryOptions) : M D E (list Document) :=
  collection <- getCollection this collectionName;;
  let options := {| fo_skip := qo_skip query;
                    fo_limit := qo_limit query;
                    fo_sort := qo_sort query;
                    fo_projection := qo_projection query |} in
  call drv (FindToArray collection (filter_or_empty query) options).

Definition deleteOne (this : MongoDBWrapper) (collectionName : string)
    (query : QueryOptions) : M D E unit :=
  collection <- getCollection this collectionName;;
  call drv (DeleteOne collection (filter_or_empty query)).

Definition deleteMany (this : MongoDBWrapper) (collectionName : string)
    (query : QueryOptions) : M D E unit :=
  collection <- getCollection this collectionName;;
  call drv (DeleteMany collection (filter_or_empty query)).

Definition count (this : MongoDBWrapper) (collectionName : string)
    (query : QueryOptions) : M D E Z :=
  collection <- getCollection this collectionName;;
  call drv (CountDocuments collection (filter_or_empty query)).
End Methods.

(** ** Query builder functions

    The builders are static and touch no driver.  Option records are
    JavaScript objects, so whether a builder returns a new object or its
    argument is visible to the caller; the records therefore live in a
    store, addressed by reference.  A new object literal takes the next free
    address. *)

Definition ref : Type := nat.
Abbreviation heap := (list QueryOptions).

Definition alloc (o : QueryOptions) (h : heap) : ref * heap :=
  (length h, h ++ [o]).

(** The object literal [{}]. *)
Definition empty_options : QueryOptions :=
  {| qo_filter := None; qo_skip := None; qo_limit := None;
     qo_sort := None; qo_projection := None |}.

(** The object literals [{ ...query, filter }], [{ ...query, skip }], ... *)
Definition spread_filter (query : QueryOptions) (filter : Filter) : QueryOptions :=
  {| qo_filter := Some filter; qo_skip := qo_skip query; qo_limit := qo_limit query;
     qo_sort := qo_sort query; qo_projection := qo_projection query |}.

Definition spread_skip (query : QueryOptions) (skip : Z) : QueryOptions :=
  {| qo_filter := qo_filter query; qo_skip := Some skip; qo_limit := qo_limit query;
     qo_sort := qo_sort query; qo_projection := qo_projection query |}.

Definition spread_limit (query : QueryOptions) (limit : Z) : QueryOptions :=
  {| qo_filter := qo_filter query; qo_skip := qo_skip query; qo_limit := Some limit;
     qo_sort := qo_sort query; qo_projection := qo_projection query |}.

Definition spread_sort (query : QueryOptions) (sort : Sort) : QueryOptions :=
  {| qo_filter := qo_filter query; qo_skip := qo_skip query; qo_limit := qo_limit query;
     qo_sort := Some sort; qo_projection := qo_projection query |}.

Definition spread_projection (query : QueryOptions) (projection : Document) : QueryOptions :=
  {| qo_filter := qo_filter query; qo_skip := qo_skip query; qo_limit := qo_limit query;
     qo_sort := qo_sort query; qo_projection := Some projection |}.

(** [createQuery(options = {})]: the default applies when no argument is
    passed; an argument is returned as it is. *)
Definition createQuery (options : option ref) (h : heap) : ref * heap :=
  match options with
  | Some r => (r, h)
  | None => alloc empty_options h
  end.

(** A builder reads the record its argument refers to; [None] stands for a
    reference into nothing, which no JavaScript program can produce. *)
Definition withFilter (query : ref) (filter : Filter) (h : heap) : option (ref * heap) :=
  match h !! query with
  | Some o => Some (alloc (spread_filter o filter) h)
  | None => None
  end.

Definition withSkip (query : ref) (skip : Z) (h : heap) : option (ref * heap) :=
  match h !! query with
  | Some o => Some (alloc (spread_skip o skip) h)
  | None => None
  end.

Definition withLimit (query : ref) (limit : Z) (h : heap) : option (ref * heap) :=
  match h !! query with
  | Some o => Some (alloc (spread_limit o limit) h)
  | None => None
  end.

Definition withSort (query : ref) (sort : Sort) (h : heap) : option (ref * heap) :=
  match h !! query with
  | Some o => Some (alloc (spread_sort o sort) h)
  | None => None
  end.

Definition withProjection (query : ref) (projection : Document) (h : heap) : option (ref * heap) :=
  match h !! query with
  | Some o => Some (alloc (spread_projection o projection) h)
  | None => None
  end.

(** ** Reading a log *)

Section Log.
Context {E : Type}.

Definition connect_of (ev : event E) : option MongoClient :=
  match ev with
  | Drv r => match r with ClientConnect c => Some c | _ => None end
  | _ => None
  end.

Definition commit_of (ev : event E) : option ClientSession :=
  match ev with
  | Drv r => match r with CommitTransaction s => Some s | _ => None end
  | _ => None
  end.

Definition abort_of (ev : event E) : option ClientSession :=
  match ev with
  | Drv r => match r with AbortTransaction s => Some s | _ => None end
  | _ => None
  end.

Definition end_of (ev : event E) : option ClientSession :=
  match ev with
  | Drv r => match r with EndSession s => Some s | _ => None end
  | _ => None
  end.

(** The clients asked to connect, and the sessions asked to commit, to
    abort and to end, each in log order and with repetitions. *)
Definition connected (l : list (event E)) : list MongoClient := omap connect_of l.
Definition committed (l : list (event E)) : list ClientSession := omap commit_of l.
Definition aborted (l : list (event E)) : list ClientSession := omap abort_of l.
Definition ended (l : list (event E)) : list ClientSession := omap end_of l.
End Log.

(** ** Names for the parts of a record, to state frame properties *)

Inductive field : Type := FFilter | FSkip | FLimit | FSort | FProjection.

Definition same_field (f : field) (a b : QueryOptions) : Prop :=
  match f with
  | FFilter => qo_filter a = qo_filter b
  | FSkip => qo_skip a = qo_skip b
  | FLimit => qo_limit a = qo_limit b
  | FSort => qo_sort a = qo_sort b
  | FProjection => qo_projection a = qo_projection b
  end.

(** What a [with*] call must have done to the store: a record [o'] sits at
    the returned reference [r], it carries the new value in the targeted
    field and agrees with [o] on every other field, and every record that
    was in the store, the one at [q] included, is still there as it was. *)
Definition replaced_in_copy {V : Type} (target : field)
    (get : QueryOptions -> option V) (v : V)
    (h : heap) (q : ref) (o : QueryOptions)
    (res : option (ref * heap)) : Prop :=
  exists (r : ref) (h' : heap) (o' : QueryOptions),
    res = Some (r, h') /\
    h' !! q = Some o /\
    (forall l x, h !! l = Some x -> h' !! l = Some x) /\
    h' !! r = Some o' /\
    get o' = Some v /\
    (forall f, f <> target -> same_field f o' o).

(** The returned reference was not in use before the call; in particular it
    is not the reference [q] that was passed in. *)
Definition returns_new_object (h : heap) (q : ref)
    (res : option (ref * heap)) : Prop :=
  exists (r : ref) (h' : heap), res = Some (r, h') /\ h !! r = None /\ r <> q.

(** A builder [build] copies: whatever the new value, it returns a new
    object that holds the given record with the targeted field replaced. *)
Definition builder_copies {V : Type} (target : field)
    (get : QueryOptions -> option V)
    (build : ref -> V -> heap -> option (ref * heap))
    (h : heap) (q : ref) (o : QueryOptions) : Prop :=
  forall v : V,
    returns_new_object h q (build q v h) /\
    replaced_in_copy target get v h q o (build q v h).

(** ** Further readers of a log *)

Section MoreLog.
Context {E : Type}.


Definition func_of (ev : event E) : option ClientSession :=
  match ev with
  | Func s => Some s
  | _ => None
  end.

(** The filter argument of a request that takes one. *)
Definition filter_of (ev : event E) : option Filter :=
  match ev with
  | Drv r =>
      match r with
      | UpdateOne _ f _ | UpdateMany _ f _ | FindOne _ f _ | FindToArray _ f _
      | DeleteOne _ f | DeleteMany _ f | CountDocuments _ f => Some f
      | _ => None
      end
  | _ => None
  end.

(** Requests that concern the client or a session rather than a
    collection. *)
Definition is_lifecycle (ev : event E) : bool :=
  match ev with
  | Drv r =>
      match r with
      | NewMongoClient _ | ClientDb _ _ | ClientConnect _ | ClientClose _
      | StartSession _ | StartTransaction _ | CommitTransaction _
      | AbortTransaction _ | EndSession _ => true
      | _ => false
      end
  | _ => false
  end.

Definition func_calls (l : list (event E)) : list ClientSession := omap func_of l.
Definition filters_sent (l : list (event E)) : list Filter := omap filter_of l.
Definition lifecycle (l : list (event E)) : list (event E) := List.filter is_lifecycle l.
End MoreLog.

(** ** Shapes of a run, to state what the data operations do *)

Section RunShapes.
Context {D E A : Type}.

(** The method stopped when it asked for the collection: that request is
    the only one made and its error is the outcome. *)
Definition fails_before_operation (this : MongoDBWrapper) (name : string)
    (d1 : D) (e : E) (m : M D E A) (d : D) : Prop :=
  m d = ([Drv (DbCollection (db this) name)], d1, Throw e).

End RunShapes.

(** ** The filter a built query sends *)

Section SentFilters.
Context {D E : Type} (drv : Driver D E) (this : MongoDBWrapper).

(** The seven filtered operations all send the one filter [f] when they are
    given the options [o]. *)
Definition all_send (name : string) (u : UpdateFilter) (o : QueryOptions)
    (d : D) (f : Filter) : Prop :=
  filters_sent (events (updateOne drv this name o u) d) = [f] /\
  filters_sent (events (updateMany drv this name o u) d) = [f] /\
  filters_sent (events (findOne drv this name o) d) = [f] /\
  filters_sent (events (find drv this name o) d) = [f] /\
  filters_sent (events (deleteOne drv this name o) d) = [f] /\
  filters_sent (events (deleteMany drv this name o) d) = [f] /\
  filters_sent (events (count drv this name o) d) = [f].
End SentFilters.

(** ** Chains of builder calls

    A call of one of the five [with*] functions with its new value, and a
    chain such as [withLimit(withSkip(q, 3), 10)], innermost call first. *)

Inductive builder_call : Type :=
  | CallWithFilter (filter : Filter)
  | CallWithSkip (skip : Z)
  | CallWithLimit (limit : Z)
  | CallWithSort (sort : Sort)
  | CallWithProjection (projection : Document).

Definition call_target (c : builder_call) : field :=
  match c with
  | CallWithFilter _ => FFilter
  | CallWithSkip _ => FSkip
  | CallWithLimit _ => FLimit
  | CallWithSort _ => FSort
  | CallWithProjection _ => FProjection
  end.

Definition apply_call (c : builder_call) (query : ref) (h : heap) : option (ref * heap) :=
  match c with
  | CallWithFilter v => withFilter query v h
  | CallWithSkip v => withSkip query v h
  | CallWithLimit v => withLimit query v h
  | CallWithSort v => withSort query v h
  | CallWithProjection v => withProjection query v h
  end.

Fixpoint apply_calls (cs : list builder_call) (query : ref) (h : heap)
    : option (ref * heap) :=
  match cs with
  | [] => Some (query, h)
  | c :: rest =>
      match apply_call c query h with
      | Some (r, h') => apply_calls rest r h'
      | None => None
      end
  end.

(** The object literal a call evaluates. *)
Definition spread_call (o : QueryOptions) (c : builder_call) : QueryOptions :=
  match c with
  | CallWithFilter v => spread_filter o v
  | CallWithSkip v => spread_skip o v
  | CallWithLimit v => spread_limit o v
  | CallWithSort v => spread_sort o v
  | CallWithProjection v => spread_projection o v
  end.

(** What a call leaves in the targeted field. *)
Definition call_sets (c : builder_call) (o : QueryOptions) : Prop :=
  match c with
  | CallWithFilter v => qo_filter o = Some v
  | CallWithSkip v => qo_skip o = Some v
  | CallWithLimit v => qo_limit o = Some v
  | CallWithSort v => qo_sort o = Some v
  | CallWithProjection v => qo_projection o = Some v
  end.

#[global] Instance field_eq_dec : EqDecision field.
Proof. solve_decision. Defined.

(** The last call of a chain that targets field [f], if there is one. *)
Definition last_call_on (f : field) (cs : list builder_call) : option builder_call :=
  last (List.filter (fun c => bool_decide (call_target c = f)) cs).

(** ** A test double for the driver

    Its state counts the requests answered so far and serves as the source
    of handles and identifiers.  A script says which transaction calls
    fail.  On insertion it keeps the identifier a document brings and makes
    one up when the document has none or a nullish one. *)

Record script : Type := {
  fail_start : option string;
  fail_commit : option string;
  fail_abort : option string;
}.

Definition answer (o : option string) : result string unit :=
  match o with
  | Some e => Throw e
  | None => Ok tt
  end.

Definition assign_id (n : nat) (doc : Document) : value :=
  match doc !! "_id" with
  | Some VUndefined | Some VNull | None => VObjectId (N.of_nat n)
  | Some v => v
  end.

Definition scripted (sc : script) : Driver nat string :=
  fun T r n =>
    match r in request T return nat * result string T with
    | NewMongoClient _ => (S n, Ok n)
    | ClientDb _ _ => (S n, Ok n)
    | ClientConnect _ => (S n, Ok tt)
    | ClientClose _ => (S n, Ok tt)
    | StartSession _ => (S n, Ok n)
    | StartTransaction _ => (S n, answer (fail_start sc))
    | CommitTransaction _ => (S n, answer (fail_commit sc))
    | AbortTransaction _ => (S n, answer (fail_abort sc))
    | EndSession _ => (S n, Ok tt)
    | DbCollection _ _ => (S n, Ok n)
    | InsertOne _ doc =>
        (S n, Ok {| io_acknowledged := true; insertedId := assign_id n doc |})
    | InsertMany _ docs =>
        (S n, Ok {| im_acknowledged := true;
                    insertedCount := Z.of_nat (length docs);
                    insertedIds := list_to_map (imap (fun i doc => (i, assign_id (n + i) doc)) docs) |})
    | UpdateOne _ _ _ => (S n, Ok tt)
    | UpdateMany _ _ _ => (S n, Ok tt)
    | FindOne _ _ _ => (S n, Ok None)
    | FindToArray _ _ _ => (S n, Ok [])
    | DeleteOne _ _ => (S n, Ok tt)
    | DeleteMany _ _ => (S n, Ok tt)
    | CountDocuments _ _ => (S n, Ok 0%Z)
    end.

Definition all_fine : script :=
  {| fail_start := None; fail_commit := None; fail_abort := None |}.

Definition a_wrapper : MongoDBWrapper :=
  {| config := {| url := "mongodb://localhost"; dbName := "app" |};
     client := 0; db := 1 |}.

(** Two transaction functions and two failing scripts for the test double. *)
Definition returns_seven : TxFunc nat string Z := fun _ n => (S n, Ok 7%Z).
Definition throws_boom : TxFunc nat string Z := fun _ n => (S n, Throw "boom").

Definition commit_fails : script :=
  {| fail_start := None; fail_commit := Some "commit failed"; fail_abort := None |}.
Definition abort_fails : script :=
  {| fail_start := None; fail_commit := None; fail_abort := Some "abort failed" |}.

(** Sample documents: one without an identifier, one that brings a null
    identifier, one that brings an identifier of its own. *)
Definition doc_plain : Document := {["name" := VStr "ann"]}.
Definition doc_null_id : Document := <["_id" := VNull]> doc_plain.
Definition doc_own_id : Document := <["_id" := VNum 5]> doc_plain.

Definition some_options : QueryOptions :=
  {| qo_filter := Some {["active" := VBool true]}; qo_skip := Some 3%Z;
     qo_limit := None; qo_sort := Some (VStr "name"); qo_projection := None |}.

Definition skip_three : QueryOptions :=
  {| qo_filter := None; qo_skip := Some 3%Z; qo_limit := None;
     qo_sort := None; qo_projection := None |}.

(** A test double that throws [e] on the requests [p] selects and answers
    the others as the scripted one does when nothing fails. *)
Definition failing_when (p : forall T : Type, request T -> bool) (e : string)
    : Driver nat string :=
  fun T r n => if p T r then (S n, Throw e) else scripted all_fine T r n.

Definition on_new_client (T : Type) (r : request T) : bool :=
  match r with
  | NewMongoClient _ => true
  | _ => false
  end.

Definition on_connect_or_close (T : Type) (r : request T) : bool :=
  match r with
  | ClientConnect _ | ClientClose _ => true
  | _ => false
  end.

Definition on_collection (T : Type) (r : request T) : bool :=
  match r with
  | DbCollection _ _ => true
  | _ => false
  end.

Definition on_start_session (T : Type) (r : request T) : bool :=
  match r with
  | StartSession _ => true
  | _ => false
  end.

Definition on_insert (T : Type) (r : request T) : bool :=
  match r with
  | InsertOne _ _ | InsertMany _ _ => true
  | _ => false
  end.

(** A test double whose answer to [insertMany] lists no identifier. *)
Definition forgetful : Driver nat string :=
  fun T r n =>
    match r in request T return nat * result string T with
    | InsertMany _ docs =>
        (S n, Ok {| im_acknowledged := false; insertedCount := 0; insertedIds := ∅ |})
    | r' => scripted all_fine _ r' n
    end.

Definition three_calls : list builder_call :=
  [CallWithLimit 10%Z; CallWithFilter {["active" := VBool true]}; CallWithLimit 2%Z].

Definition two_stores : heap := [empty_options; some_options].

Definition start_fails : script :=
  {| fail_start := Some "no transactions"; fail_commit := None; fail_abort := None |}.

Definition limit_ten : QueryOptions :=
  {| qo_filter := None; qo_skip := Some 3%Z; qo_limit := Some 10%Z;
     qo_sort := None; qo_projection := None |}.

(** * Properties *)

Ltac unfold_run :=
  unfold events, final, outcome, constructor, connect, disconnect,
    executeInTransaction, insertOne, insertMany, updateOne, updateMany,
    findOne, find, deleteOne, deleteMany, count, getCollection,
    bind, try_finally, try_catch, call, call_detached, call_func,
    console_error, ret, throw.

(** Case analysis on every answer of the driver and of the transaction
    function that the goal still mentions. *)
Ltac answer_driver drv :=
  repeat match goal with
    | |- context [drv ?T ?r ?d] => destruct (drv T r d) as [? [?|?]] eqn:?; simpl
    end.

Ltac answer_all drv func :=
  repeat match goal with
    | |- context [drv ?T ?r ?d] => destruct (drv T r d) as [? [?|?]] eqn:?; simpl
    | |- context [func ?s ?d] => destruct (func s d) as [? [?|?]] eqn:?; simpl
    end.

(** ** Transactions *)

Section Transactions.
Context {D E T : Type} (drv : Driver D E) (this : MongoDBWrapper).
Context (func : TxFunc D E T).

(** The run when the transaction function throws. *)
Lemma run_func_throws d d1 s d2 d3 e :
  drv _ (StartSession (client this)) d = (d1, Ok s) ->
  drv _ (StartTransaction s) d1 = (d2, Ok tt) ->
  func s d2 = (d3, Throw e) ->
  executeInTransaction drv this func d =
    ([Drv (StartSession (client this)); Drv (StartTransaction s); Func s;
      Drv (AbortTransaction s); Drv (EndSession s)],
     (drv _ (EndSession s) (drv _ (AbortTransaction s) d3).1).1,
     match (drv _ (AbortTransaction s) d3).2 with
     | Ok _ => Throw e
     | Throw e' => Throw e'
     end).
Proof.
  intros Hs Ht Hf. unfold_run.
  rewrite Hs; simpl. rewrite Ht; simpl. rewrite Hf; simpl.
  answer_all drv func; reflexivity.
Qed.

(** The run when the transaction function returns and the commit goes
    through. *)
Lemma run_commit_ok d d1 s d2 d3 v d4 :
  drv _ (StartSession (client this)) d = (d1, Ok s) ->
  drv _ (StartTransaction s) d1 = (d2, Ok tt) ->
  func s d2 = (d3, Ok v) ->
  drv _ (CommitTransaction s) d3 = (d4, Ok tt) ->
  executeInTransaction drv this func d =
    ([Drv (StartSession (client this)); Drv (StartTransaction s); Func s;
      Drv (CommitTransaction s); Drv (EndSession s)],
     (drv _ (EndSession s) d4).1,
     Ok v).
Proof.
  intros Hs Ht Hf Hc. unfold_run.
  rewrite Hs; simpl. rewrite Ht; simpl. rewrite Hf; simpl. rewrite Hc; simpl.
  answer_all drv func; reflexivity.
Qed.

(** The run when the transaction function returns and the commit fails:
    the catch clause receives the commit's error. *)
Lemma run_commit_throws d d1 s d2 d3 v d4 e :
  drv _ (StartSession (client this)) d = (d1, Ok s) ->
  drv _ (StartTransaction s) d1 = (d2, Ok tt) ->
  func s d2 = (d3, Ok v) ->
  drv _ (CommitTransaction s) d3 = (d4, Throw e) ->
  executeInTransaction drv this func d =
    ([Drv (StartSession (client this)); Drv (StartTransaction s); Func s;
      Drv (CommitTransaction s); Drv (AbortTransaction s); Drv (EndSession s)],
     (drv _ (EndSession s) (drv _ (AbortTransaction s) d4).1).1,
     match (drv _ (AbortTransaction s) d4).2 with
     | Ok _ => Throw e
     | Throw e' => Throw e'
     end).
Proof.
  intros Hs Ht Hf Hc. unfold_run.
  rewrite Hs; simpl. rewrite Ht; simpl. rewrite Hf; simpl. rewrite Hc; simpl.
  answer_all drv func; reflexivity.
Qed.

(** When no session can be started there is nothing to end: the call is
    outside the [try] statement and its error goes straight to the caller. *)
Lemma run_no_session d d1 e :
  drv _ (StartSession (client this)) d = (d1, Throw e) ->
  executeInTransaction drv this func d =
    ([Drv (StartSession (client this))], d1, Throw e).
Proof. intros Hs. unfold_run. rewrite Hs. reflexivity. Qed.

(** C1 (as amended).  Once the session and the transaction are started:
    if the supplied function throws, the transaction is aborted, no commit
    is ever requested, and [executeInTransaction] throws, the function's
    own error whenever the abort goes through; if the supplied function
    returns, a commit is requested, and whenever it goes through nothing
    is aborted and the function's value is returned unchanged. *)
Theorem executeInTransaction_abort_or_commit d d1 s d2
    (Hs : drv _ (StartSession (client this)) d = (d1, Ok s))
    (Ht : drv _ (StartTransaction s) d1 = (d2, Ok tt)) :
  let l := events (executeInTransaction drv this func) d in
  let out := outcome (executeInTransaction drv this func) d in
  (forall d3 e, func s d2 = (d3, Throw e) ->
     aborted l = [s] /\ committed l = [] /\
     (exists e', out = Throw e') /\
     ((drv _ (AbortTransaction s) d3).2 = Ok tt -> out = Throw e))
  /\
  (forall d3 v, func s d2 = (d3, Ok v) ->
     committed l = [s] /\
     ((drv _ (CommitTransaction s) d3).2 = Ok tt ->
      aborted l = [] /\ out = Ok v)).
Proof.
  intros l out; subst l out; unfold events, outcome; split.
  - intros d3 e Hf. rewrite (run_func_throws _ _ _ _ _ _ Hs Ht Hf); simpl.
    repeat split.
    + destruct (drv _ (AbortTransaction s) d3) as [? [[]|e']]; simpl; eauto.
    + intros ->. reflexivity.
  - intros d3 v Hf.
    destruct (drv _ (CommitTransaction s) d3) as [d4 [[]|e]] eqn:Hc.
    + rewrite (run_commit_ok _ _ _ _ _ _ _ Hs Ht Hf Hc); simpl. auto.
    + rewrite (run_commit_throws _ _ _ _ _ _ _ _ Hs Ht Hf Hc); simpl.
      split; [reflexivity | discriminate].
Qed.

(** C2.  Whatever the supplied function, the commit and the abort do, the
    session that was started is ended exactly once. *)
Theorem executeInTransaction_ends_session_once d d1 s
    (Hs : drv _ (StartSession (client this)) d = (d1, Ok s)) :
  ended (events (executeInTransaction drv this func) d) = [s].
Proof.
  unfold_run. rewrite Hs; simpl.
  answer_all drv func; reflexivity.
Qed.

(** C3 (as amended).  An error raised inside the supplied function reaches
    the caller as it is when the abort goes through; when the abort itself
    throws, the caller receives the abort's error in its place. *)
Theorem executeInTransaction_rethrows d d1 s d2 d3 e
    (Hs : drv _ (StartSession (client this)) d = (d1, Ok s))
    (Ht : drv _ (StartTransaction s) d1 = (d2, Ok tt))
    (Hf : func s d2 = (d3, Throw e)) :
  outcome (executeInTransaction drv this func) d =
    match (drv _ (AbortTransaction s) d3).2 with
    | Ok _ => Throw e
    | Throw e' => Throw e'
    end.
Proof. unfold outcome. rewrite (run_func_throws _ _ _ _ _ _ Hs Ht Hf). reflexivity. Qed.
End Transactions.

(** The theorem above at the test double with nothing failing. *)
Lemma executeInTransaction_abort_or_commit_witness :
  outcome (executeInTransaction (scripted all_fine) a_wrapper returns_seven) 0 = Ok 7%Z
  /\ outcome (executeInTransaction (scripted all_fine) a_wrapper throws_boom) 0 = Throw "boom".
Proof.
  split.
  - destruct (executeInTransaction_abort_or_commit
                (scripted all_fine) a_wrapper returns_seven 0 1 0 2) as [_ H];
      [reflexivity | reflexivity |].
    destruct (H 3 7%Z) as [_ H']; [reflexivity |].
    apply H'. reflexivity.
  - destruct (executeInTransaction_abort_or_commit
                (scripted all_fine) a_wrapper throws_boom 0 1 0 2) as [H _];
      [reflexivity | reflexivity |].
    destruct (H 3 "boom") as (_ & _ & _ & H'); [reflexivity |].
    apply H'. reflexivity.
Defined.

(** C1, as stated, fails when the commit is rejected: the supplied function
    has returned 7, yet the caller gets the commit's error. *)
Lemma executeInTransaction_commit_failure :
  ~ (returns_seven 0 2 = (3, Ok 7%Z) ->
     outcome (executeInTransaction (scripted commit_fails) a_wrapper returns_seven) 0
     = Ok 7%Z).
Proof. intros H. specialize (H eq_refl). vm_compute in H. discriminate H. Qed.

(** One end of session on the path where the commit fails. *)
Lemma executeInTransaction_ends_session_once_witness :
  ended (events (executeInTransaction (scripted commit_fails) a_wrapper returns_seven) 0) = [0].
Proof.
  apply (executeInTransaction_ends_session_once
           (scripted commit_fails) a_wrapper returns_seven 0 1 0).
  reflexivity.
Defined.

(** "boom" comes back as "boom" when the abort goes through. *)
Lemma executeInTransaction_rethrows_witness :
  outcome (executeInTransaction (scripted all_fine) a_wrapper throws_boom) 0 = Throw "boom".
Proof.
  apply (executeInTransaction_rethrows
           (scripted all_fine) a_wrapper throws_boom 0 1 0 2 3 "boom");
    reflexivity.
Defined.

(** C3, as stated, fails when the abort is rejected: the supplied function
    threw "boom", the caller receives the abort's error. *)
Lemma executeInTransaction_abort_failure :
  ~ (throws_boom 0 2 = (3, Throw "boom") ->
     outcome (executeInTransaction (scripted abort_fails) a_wrapper throws_boom) 0
     = Throw "boom").
Proof. intros H. specialize (H eq_refl). vm_compute in H. discriminate H. Qed.

(** ** Inserts *)

Section Inserts.
Context {D E : Type} (drv : Driver D E) (this : MongoDBWrapper).

Lemma run_insertOne collectionName doc d d1 col d2 r :
  drv _ (DbCollection (db this) collectionName) d = (d1, Ok col) ->
  drv _ (InsertOne col doc) d1 = (d2, Ok r) ->
  insertOne drv this collectionName doc d =
    ([Drv (DbCollection (db this) collectionName); Drv (InsertOne col doc)],
     d2, Ok (<["_id" := insertedId r]> doc)).
Proof. intros Hc Hi. unfold_run. rewrite Hc; simpl. rewrite Hi. reflexivity. Qed.

Lemma run_insertMany collectionName docs d d1 col d2 r :
  drv _ (DbCollection (db this) collectionName) d = (d1, Ok col) ->
  drv _ (InsertMany col docs) d1 = (d2, Ok r) ->
  insertMany drv this collectionName docs d =
    ([Drv (DbCollection (db this) collectionName); Drv (InsertMany col docs)],
     d2,
     Ok (imap (fun index doc => <["_id" := js_index (insertedIds r) index]> doc) docs)).
Proof. intros Hc Hi. unfold_run. rewrite Hc; simpl. rewrite Hi. reflexivity. Qed.

(** A driver error is handed on as it is. *)
Lemma insertOne_propagates collectionName doc d d1 col d2 e :
  drv _ (DbCollection (db this) collectionName) d = (d1, Ok col) ->
  drv _ (InsertOne col doc) d1 = (d2, Throw e) ->
  outcome (insertOne drv this collectionName doc) d = Throw e.
Proof. intros Hc Hi. unfold_run. rewrite Hc; simpl. rewrite Hi. reflexivity. Qed.

(** C4 (as amended).  When the driver has inserted the document, the
    result holds every field of the input other than the identifier with
    its input value, and the identifier the driver assigned. *)
Theorem insertOne_keeps_fields collectionName (doc : Document) d d1 col d2 r
    (Hc : drv _ (DbCollection (db this) collectionName) d = (d1, Ok col))
    (Hi : drv _ (InsertOne col doc) d1 = (d2, Ok r)) :
  exists res : Document,
    outcome (insertOne drv this collectionName doc) d = Ok res /\
    (forall k v, k <> "_id" -> doc !! k = Some v -> res !! k = Some v) /\
    res !! "_id" = Some (insertedId r).
Proof.
  exists (<["_id" := insertedId r]> doc).
  unfold outcome. rewrite (run_insertOne _ _ _ _ _ _ _ Hc Hi); simpl.
  split; [reflexivity | split].
  - intros k v Hk Hv. rewrite lookup_insert_ne; [exact Hv | congruence].
  - apply lookup_insert_eq.
Qed.

(** C10.  Whatever the input document holds, an identifier of its own
    included, the identifier of the result is the one the driver
    assigned: the result is the same as for the input stripped of its
    identifier. *)
Theorem insertOne_id_is_assigned collectionName (doc : Document) d d1 col d2 r
    (Hc : drv _ (DbCollection (db this) collectionName) d = (d1, Ok col))
    (Hi : drv _ (InsertOne col doc) d1 = (d2, Ok r)) :
  exists res : Document,
    outcome (insertOne drv this collectionName doc) d = Ok res /\
    res !! "_id" = Some (insertedId r) /\
    res = <["_id" := insertedId r]> (delete "_id" doc).
Proof.
  eexists. unfold outcome. rewrite (run_insertOne _ _ _ _ _ _ _ Hc Hi); simpl.
  split; [reflexivity | split].
  - apply lookup_insert_eq.
  - symmetry. apply insert_delete_eq.
Qed.

(** C5.  When the driver has inserted the documents, the result has the
    length of the input and, at every position, the input document of that
    position with the identifier of that position attached. *)
Theorem insertMany_positional collectionName (docs : list Document) d d1 col d2 r
    (Hc : drv _ (DbCollection (db this) collectionName) d = (d1, Ok col))
    (Hi : drv _ (InsertMany col docs) d1 = (d2, Ok r)) :
  exists res : list Document,
    outcome (insertMany drv this collectionName docs) d = Ok res /\
    length res = length docs /\
    forall i doc, docs !! i = Some doc ->
      res !! i = Some (<["_id" := js_index (insertedIds r) i]> doc).
Proof.
  eexists. unfold outcome. rewrite (run_insertMany _ _ _ _ _ _ _ Hc Hi); simpl.
  split; [reflexivity | split].
  - apply length_imap.
  - intros i doc Hd. rewrite list_lookup_imap, Hd. reflexivity.
Qed.
End Inserts.

(** A document that brings an identifier the driver keeps. *)
Lemma insertOne_keeps_fields_witness :
  exists res : Document,
    outcome (insertOne (scripted all_fine) a_wrapper "users" doc_own_id) 0 = Ok res /\
    (forall k v, k <> "_id" -> doc_own_id !! k = Some v -> res !! k = Some v) /\
    res !! "_id" = Some (VNum 5).
Proof.
  apply (insertOne_keeps_fields (scripted all_fine) a_wrapper "users" doc_own_id
           0 1 0 2 {| io_acknowledged := true; insertedId := VNum 5 |});
    vm_compute; reflexivity.
Defined.

(** C4, as stated, fails on the identifier field itself: the document
    brings [_id: null], the result holds the identifier that was assigned. *)
Lemma insertOne_replaces_input_id :
  ~ (forall res : Document,
       outcome (insertOne (scripted all_fine) a_wrapper "users" doc_null_id) 0 = Ok res ->
       forall k v, doc_null_id !! k = Some v -> res !! k = Some v).
Proof.
  intros H.
  specialize (H (<["_id" := VObjectId 1]> doc_null_id)).
  assert (Hid : (<["_id" := VObjectId 1]> doc_null_id : Document) !! "_id" = Some VNull).
  { apply H; vm_compute; reflexivity. }
  rewrite lookup_insert_eq in Hid. discriminate Hid.
Qed.

(** The null identifier of the input gives way to the assigned one. *)
Lemma insertOne_id_is_assigned_witness :
  exists res : Document,
    outcome (insertOne (scripted all_fine) a_wrapper "users" doc_null_id) 0 = Ok res /\
    res !! "_id" = Some (VObjectId 1) /\
    res = <["_id" := VObjectId 1]> (delete "_id" doc_null_id).
Proof.
  apply (insertOne_id_is_assigned (scripted all_fine) a_wrapper "users" doc_null_id
           0 1 0 2 {| io_acknowledged := true; insertedId := VObjectId 1 |});
    vm_compute; reflexivity.
Defined.

(** Two documents, two identifiers, position by position. *)
Lemma insertMany_positional_witness :
  exists res : list Document,
    outcome (insertMany (scripted all_fine) a_wrapper "users" [doc_plain; doc_own_id]) 0
    = Ok res /\
    length res = 2 /\
    forall i doc, [doc_plain; doc_own_id] !! i = Some doc ->
      res !! i = Some (<["_id" := js_index {[0 := VObjectId 1; 1 := VNum 5]} i]> doc).
Proof.
  assert (Hc : scripted all_fine _ (DbCollection (db a_wrapper) "users") 0 = (1, Ok 0))
    by reflexivity.
  assert (Hi : scripted all_fine _ (InsertMany 0 [doc_plain; doc_own_id]) 1
               = (2, Ok {| im_acknowledged := true; insertedCount := 2;
                           insertedIds := {[0 := VObjectId 1; 1 := VNum 5]} |}))
    by (vm_compute; reflexivity).
  exact (insertMany_positional (scripted all_fine) a_wrapper "users"
           [doc_plain; doc_own_id] 0 1 0 2 _ Hc Hi).
Defined.

(** ** Query builders *)

Section Builders.
Implicit Types (h : heap) (q : ref) (o : QueryOptions).

Lemma alloc_old o h l x : h !! l = Some x -> (alloc o h).2 !! l = Some x.
Proof.
  intros Hl. unfold alloc; simpl.
  rewrite lookup_app_l; [exact Hl | eapply lookup_lt_Some, Hl].
Qed.

Lemma alloc_new o h : (alloc o h).2 !! (alloc o h).1 = Some o.
Proof. unfold alloc; simpl. apply list_lookup_middle. reflexivity. Qed.

Lemma alloc_fresh o h : h !! (alloc o h).1 = None.
Proof. unfold alloc; simpl. apply lookup_ge_None_2. reflexivity. Qed.

Lemma alloc_replaced {V} target (get : QueryOptions -> option V) v h q o o' :
  h !! q = Some o ->
  get o' = Some v ->
  (forall f, f <> target -> same_field f o' o) ->
  replaced_in_copy target get v h q o (Some (alloc o' h)).
Proof.
  intros Hq Hv Hframe.
  exists (alloc o' h).1, (alloc o' h).2, o'.
  split; [destruct (alloc o' h); reflexivity |].
  split; [apply alloc_old, Hq |].
  split; [intros l x; apply alloc_old |].
  split; [apply alloc_new |].
  split; assumption.
Qed.

Lemma alloc_returns_new o' h q o :
  h !! q = Some o -> returns_new_object h q (Some (alloc o' h)).
Proof.
  intros Hq. exists (alloc o' h).1, (alloc o' h).2.
  split; [destruct (alloc o' h); reflexivity |].
  split; [apply alloc_fresh |].
  intros Heq. pose proof (alloc_fresh o' h) as Hnone.
  rewrite Heq, Hq in Hnone. discriminate Hnone.
Qed.

Lemma alloc_copies {V} target (get : QueryOptions -> option V)
    (spread : QueryOptions -> V -> QueryOptions) h q o :
  h !! q = Some o ->
  (forall v, get (spread o v) = Some v) ->
  (forall v f, f <> target -> same_field f (spread o v) o) ->
  builder_copies target get
    (fun query v h => match h !! query with
                      | Some o => Some (alloc (spread o v) h)
                      | None => None
                      end) h q o.
Proof.
  intros Hq Hget Hframe v. rewrite Hq. split.
  - apply (alloc_returns_new _ _ _ _ Hq).
  - apply alloc_replaced; [exact Hq | apply Hget | apply Hframe].
Qed.

Lemma withFilter_copies h q o :
  h !! q = Some o -> builder_copies FFilter qo_filter withFilter h q o.
Proof.
  intros Hq. apply (alloc_copies FFilter qo_filter spread_filter); auto.
  intros v [] Hf; try reflexivity; congruence.
Qed.

Lemma withSkip_copies h q o :
  h !! q = Some o -> builder_copies FSkip qo_skip withSkip h q o.
Proof.
  intros Hq. apply (alloc_copies FSkip qo_skip spread_skip); auto.
  intros v [] Hf; try reflexivity; congruence.
Qed.

Lemma withLimit_copies h q o :
  h !! q = Some o -> builder_copies FLimit qo_limit withLimit h q o.
Proof.
  intros Hq. apply (alloc_copies FLimit qo_limit spread_limit); auto.
  intros v [] Hf; try reflexivity; congruence.
Qed.

Lemma withSort_copies h q o :
  h !! q = Some o -> builder_copies FSort qo_sort withSort h q o.
Proof.
  intros Hq. apply (alloc_copies FSort qo_sort spread_sort); auto.
  intros v [] Hf; try reflexivity; congruence.
Qed.

Lemma withProjection_copies h q o :
  h !! q = Some o -> builder_copies FProjection qo_projection withProjection h q o.
Proof.
  intros Hq. apply (alloc_copies FProjection qo_projection spread_projection); auto.
  intros v [] Hf; try reflexivity; congruence.
Qed.

(** C6.  Each [with*] builder leaves the record it is given as it was and
    returns a new record that carries the new value in the targeted field
    and equals the given one on every other field. *)
Theorem with_builders_frame h q o (Hq : h !! q = Some o) :
  builder_copies FFilter qo_filter withFilter h q o /\
  builder_copies FSkip qo_skip withSkip h q o /\
  builder_copies FLimit qo_limit withLimit h q o /\
  builder_copies FSort qo_sort withSort h q o /\
  builder_copies FProjection qo_projection withProjection h q o.
Proof.
  repeat apply conj;
    eauto using withFilter_copies, withSkip_copies, withLimit_copies,
      withSort_copies, withProjection_copies.
Qed.

(** C9 (as amended).  Each of the five [with*] builders returns a record
    that did not exist before, a copy of the given one with one field
    replaced; [createQuery] returns the very record it is given and
    changes nothing, and makes a new empty record only when it is called
    without an argument. *)
Theorem builders_copy_createQuery_does_not h q o (Hq : h !! q = Some o) :
  (builder_copies FFilter qo_filter withFilter h q o /\
   builder_copies FSkip qo_skip withSkip h q o /\
   builder_copies FLimit qo_limit withLimit h q o /\
   builder_copies FSort qo_sort withSort h q o /\
   builder_copies FProjection qo_projection withProjection h q o) /\
  createQuery (Some q) h = (q, h) /\
  h !! (createQuery None h).1 = None /\
  (createQuery None h).2 !! (createQuery None h).1 = Some empty_options.
Proof.
  split; [| split; [reflexivity | split; [apply alloc_fresh | apply alloc_new]]].
  repeat apply conj;
    eauto using withFilter_copies, withSkip_copies, withLimit_copies,
      withSort_copies, withProjection_copies.
Qed.
End Builders.

(** [withLimit] on the second record of a store of two. *)
Lemma with_builders_frame_witness :
  replaced_in_copy FLimit qo_limit 2%Z [empty_options; some_options] 1 some_options
    (withLimit 1 2%Z [empty_options; some_options]).
Proof.
  destruct (with_builders_frame [empty_options; some_options] 1 some_options)
    as (_ & _ & Hlimit & _); [reflexivity |].
  apply Hlimit.
Defined.

(** C9, as stated, fails for [createQuery]: the reference it returns is the
    one it was given, an object that was already there. *)
Lemma createQuery_returns_its_argument :
  ~ returns_new_object [empty_options; some_options] 1
      (Some (createQuery (Some 1) [empty_options; some_options])).
Proof.
  intros (r & h' & Hres & _ & Hne).
  injection Hres as <- <-. apply Hne. reflexivity.
Qed.

(** [createQuery] hands back reference 1; [withSort] hands out a new one. *)
Lemma builders_copy_createQuery_does_not_witness :
  createQuery (Some 1) [empty_options; some_options] = (1, [empty_options; some_options])
  /\ returns_new_object [empty_options; some_options] 1
       (withSort 1 (VStr "age") [empty_options; some_options]).
Proof.
  destruct (builders_copy_createQuery_does_not
              [empty_options; some_options] 1 some_options)
    as ((_ & _ & _ & Hsort & _) & Hcreate & _); [reflexivity |].
  split; [exact Hcreate | apply Hsort].
Defined.

(** ** A missing filter *)

Section Filters.
Context {D E : Type} (drv : Driver D E) (this : MongoDBWrapper).

(** C7.  With an options record that has no filter, each of the seven
    filtered operations is the same computation as with that record given
    the empty filter: same requests to the driver, same final state, same
    outcome. *)
Theorem missing_filter_is_empty_filter (collectionName : string)
    (query : QueryOptions) (update : UpdateFilter)
    (Hnone : qo_filter query = None) :
  updateOne drv this collectionName query update
    = updateOne drv this collectionName (spread_filter query ∅) update /\
  updateMany drv this collectionName query update
    = updateMany drv this collectionName (spread_filter query ∅) update /\
  deleteOne drv this collectionName query
    = deleteOne drv this collectionName (spread_filter query ∅) /\
  deleteMany drv this collectionName query
    = deleteMany drv this collectionName (spread_filter query ∅) /\
  count drv this collectionName query
    = count drv this collectionName (spread_filter query ∅) /\
  find drv this collectionName query
    = find drv this collectionName (spread_filter query ∅) /\
  findOne drv this collectionName query
    = findOne drv this collectionName (spread_filter query ∅).
Proof.
  unfold updateOne, updateMany, deleteOne, deleteMany, count, find, findOne,
    filter_or_empty.
  rewrite Hnone; simpl.
  repeat split.
Qed.
End Filters.

(** An options record with a skip and no filter: the driver is asked to
    delete with the empty filter. *)
Lemma missing_filter_is_empty_filter_witness :
  count (scripted all_fine) a_wrapper "users" skip_three
  = count (scripted all_fine) a_wrapper "users" (spread_filter skip_three ∅)
  /\ events (deleteMany (scripted all_fine) a_wrapper "users" skip_three) 0
     = [Drv (DbCollection 1 "users"); Drv (DeleteMany 0 ∅)].
Proof.
  destruct (missing_filter_is_empty_filter (scripted all_fine) a_wrapper "users"
              skip_three ∅) as (_ & _ & _ & _ & Hcount & _); [reflexivity |].
  split; [exact Hcount | reflexivity].
Defined.

(** ** Construction *)

Section Construction.
Context {D E : Type} (drv : Driver D E).

(** C8.  Constructing the wrapper asks no client to connect, whatever the
    configuration and whatever the driver answers; the request is made by
    [connect], once, on the wrapper's client. *)
Theorem constructor_does_not_connect (cfg : DataStoreConfig) (d : D) :
  connected (events (constructor drv cfg) d) = [] /\
  forall this d', connected (events (connect drv this) d') = [client this].
Proof.
  split; [| intros this d']; unfold_run; answer_driver drv; reflexivity.
Qed.
End Construction.

(** * Further properties of the wrapper *)

(** ** Connecting, disconnecting, constructing *)

Section Lifecycle.
Context {D E : Type} (drv : Driver D E) (this : MongoDBWrapper).

(** X1.  [connect] asks the wrapper's client to connect.  When that fails it
    writes one line to the console, carrying the error, and throws the same
    error; when it succeeds it writes nothing. *)
Theorem connect_logs_and_rethrows (d : D) :
  match drv _ (ClientConnect (client this)) d with
  | (d1, Ok _) =>
      connect drv this d = ([Drv (ClientConnect (client this))], d1, Ok tt)
  | (d1, Throw e) =>
      connect drv this d =
        ([Drv (ClientConnect (client this));
          ConsoleError "Failed to connect to MongoDB" e], d1, Throw e)
  end.
Proof.
  unfold_run.
  destruct (drv _ (ClientConnect (client this)) d) as [d1 [[]|e]]; reflexivity.
Qed.

(** X2.  [disconnect] asks the wrapper's client to close.  When that fails
    it writes one line to the console, carrying the error, and throws the
    same error; when it succeeds it writes nothing. *)
Theorem disconnect_logs_and_rethrows (d : D) :
  match drv _ (ClientClose (client this)) d with
  | (d1, Ok _) =>
      disconnect drv this d = ([Drv (ClientClose (client this))], d1, Ok tt)
  | (d1, Throw e) =>
      disconnect drv this d =
        ([Drv (ClientClose (client this));
          ConsoleError "Failed to disconnect from MongoDB" e], d1, Throw e)
  end.
Proof.
  unfold_run.
  destruct (drv _ (ClientClose (client this)) d) as [d1 [[]|e]]; reflexivity.
Qed.

(** X3.  A wrapper that was constructed holds the configuration it was
    given, the client the driver made for that configuration's URL, and the
    database that client gave for that configuration's database name. *)
Theorem constructor_builds_from_config (cfg : DataStoreConfig) (d : D)
    (w : MongoDBWrapper)
    (Hout : outcome (constructor drv cfg) d = Ok w) :
  config w = cfg /\
  exists d1,
    drv _ (NewMongoClient (url cfg)) d = (d1, Ok (client w)) /\
    drv _ (ClientDb (client w) (dbName cfg)) d1
      = (final (constructor drv cfg) d, Ok (db w)).
Proof.
  revert Hout. unfold_run.
  destruct (drv _ (NewMongoClient (url cfg)) d) as [d1 [c|e]]; simpl;
    [| discriminate].
  destruct (drv _ (ClientDb c (dbName cfg)) d1) as [d2 [b|e]] eqn:Hdb; simpl;
    [| discriminate].
  intros [= <-]; simpl. split; [reflexivity |].
  exists d1. split; [reflexivity | exact Hdb].
Qed.

(** X4.  When the client cannot be made, the constructor throws that error
    and never asks for a database. *)
Theorem constructor_stops_without_client (cfg : DataStoreConfig) (d d1 : D) (e : E)
    (Hnew : drv _ (NewMongoClient (url cfg)) d = (d1, Throw e)) :
  constructor drv cfg d = ([Drv (NewMongoClient (url cfg))], d1, Throw e).
Proof. unfold_run. rewrite Hnew. reflexivity. Qed.
End Lifecycle.

(** The sample wrapper is what the constructor makes at the test double. *)
Lemma constructor_builds_from_config_witness :
  config a_wrapper = {| url := "mongodb://localhost"; dbName := "app" |} /\
  exists d1,
    scripted all_fine _ (NewMongoClient "mongodb://localhost") 0 = (d1, Ok 0) /\
    scripted all_fine _ (ClientDb 0 "app") d1 = (2, Ok 1).
Proof.
  apply (constructor_builds_from_config (scripted all_fine)
           {| url := "mongodb://localhost"; dbName := "app" |} 0 a_wrapper).
  reflexivity.
Defined.

(** A URL the driver refuses: one request, its error, no database. *)
Lemma constructor_stops_without_client_witness :
  constructor (failing_when on_new_client "bad url")
    {| url := "nonsense"; dbName := "app" |} 0
  = ([Drv (NewMongoClient "nonsense")], 1, Throw "bad url").
Proof.
  apply (constructor_stops_without_client (failing_when on_new_client "bad url")
           {| url := "nonsense"; dbName := "app" |} 0 1 "bad url").
  reflexivity.
Defined.

(** ** More on transactions *)

Section TransactionProtocol.
Context {D E T : Type} (drv : Driver D E) (this : MongoDBWrapper).
Context (func : TxFunc D E T).

(** X5.  Once a session is started, the requests of a transaction follow
    one of four sequences and no other: start and abort when the transaction
    cannot be started; start, the supplied function and abort when the
    function throws; start, function and commit; start, function, commit and
    abort when the commit fails.  The end of the session always comes last,
    and the function is handed the session that was started. *)
Theorem executeInTransaction_protocol (d d1 : D) (s : ClientSession)
    (Hs : drv _ (StartSession (client this)) d = (d1, Ok s)) :
  let l := events (executeInTransaction drv this func) d in
  let opening := [Drv (StartSession (client this)); Drv (StartTransaction s)] in
  l = opening ++ [Drv (AbortTransaction s); Drv (EndSession s)] \/
  l = opening ++ [Func s; Drv (AbortTransaction s); Drv (EndSession s)] \/
  l = opening ++ [Func s; Drv (CommitTransaction s); Drv (EndSession s)] \/
  l = opening ++ [Func s; Drv (CommitTransaction s); Drv (AbortTransaction s);
                  Drv (EndSession s)].
Proof.
  unfold_run. rewrite Hs; simpl.
  answer_all drv func; auto.
Qed.

(** X6.  When [executeInTransaction] returns a value, the transaction was
    started, the supplied function was called once and returned that value,
    the commit was requested once and went through, and nothing was
    aborted. *)
Theorem executeInTransaction_ok_means_committed (d d1 : D) (s : ClientSession) (v : T)
    (Hs : drv _ (StartSession (client this)) d = (d1, Ok s))
    (Hout : outcome (executeInTransaction drv this func) d = Ok v) :
  let l := events (executeInTransaction drv this func) d in
  func_calls l = [s] /\ committed l = [s] /\ aborted l = [] /\
  exists d2 d3 d4,
    drv _ (StartTransaction s) d1 = (d2, Ok tt) /\
    func s d2 = (d3, Ok v) /\
    drv _ (CommitTransaction s) d3 = (d4, Ok tt).
Proof.
  revert Hout. unfold_run. rewrite Hs; simpl.
  destruct (drv _ (StartTransaction s) d1) as [d2 [[]|e]] eqn:Ht; simpl.
  - destruct (func s d2) as [d3 [x|e]] eqn:Hf; simpl.
    + destruct (drv _ (CommitTransaction s) d3) as [d4 [[]|e]] eqn:Hc; simpl.
      * answer_driver drv; intros [= <-];
          do 3 (split; [reflexivity |]);
          exists d2, d3, d4; auto.
      * answer_driver drv; discriminate.
    + answer_driver drv; discriminate.
  - answer_driver drv; discriminate.
Qed.

(** X7.  When the transaction cannot be started, the supplied function is
    never called and no commit is requested; the abort is requested all the
    same, the session is ended, and the caller receives the start's error,
    or the abort's if the abort fails too. *)
Theorem executeInTransaction_start_failure (d d1 d2 : D) (s : ClientSession) (e : E)
    (Hs : drv _ (StartSession (client this)) d = (d1, Ok s))
    (Ht : drv _ (StartTransaction s) d1 = (d2, Throw e)) :
  let l := events (executeInTransaction drv this func) d in
  func_calls l = [] /\ committed l = [] /\ aborted l = [s] /\ ended l = [s] /\
  outcome (executeInTransaction drv this func) d =
    match (drv _ (AbortTransaction s) d2).2 with
    | Ok _ => Throw e
    | Throw e' => Throw e'
    end.
Proof.
  unfold_run. rewrite Hs; simpl. rewrite Ht; simpl.
  answer_driver drv; repeat split.
Qed.

(** X8.  When the supplied function has returned and the commit fails, the
    transaction that was just refused is aborted, the session is ended, the
    function's value is dropped, and the caller receives the commit's
    error, or the abort's if the abort fails too. *)
Theorem executeInTransaction_failed_commit_is_aborted
    (d d1 d2 d3 d4 : D) (s : ClientSession) (v : T) (e : E)
    (Hs : drv _ (StartSession (client this)) d = (d1, Ok s))
    (Ht : drv _ (StartTransaction s) d1 = (d2, Ok tt))
    (Hf : func s d2 = (d3, Ok v))
    (Hc : drv _ (CommitTransaction s) d3 = (d4, Throw e)) :
  let l := events (executeInTransaction drv this func) d in
  committed l = [s] /\ aborted l = [s] /\ ended l = [s] /\
  outcome (executeInTransaction drv this func) d =
    match (drv _ (AbortTransaction s) d4).2 with
    | Ok _ => Throw e
    | Throw e' => Throw e'
    end.
Proof.
  intros l; subst l. unfold events, outcome.
  rewrite (run_commit_throws _ _ _ _ _ _ _ _ _ _ _ Hs Ht Hf Hc); simpl.
  repeat split.
Qed.

(** X9.  When no session can be started, the error goes to the caller as it
    is; the supplied function is not called and nothing is started, aborted
    or ended. *)
Theorem executeInTransaction_without_session (d d1 : D) (e : E)
    (Hs : drv _ (StartSession (client this)) d = (d1, Throw e)) :
  let l := events (executeInTransaction drv this func) d in
  l = [Drv (StartSession (client this))] /\
  func_calls l = [] /\ aborted l = [] /\ ended l = [] /\
  outcome (executeInTransaction drv this func) d = Throw e /\
  final (executeInTransaction drv this func) d = d1.
Proof.
  intros l; subst l. unfold events, outcome, final.
  rewrite (run_no_session _ _ _ _ _ _ Hs); simpl.
  repeat split.
Qed.
End TransactionProtocol.

(** The fourth sequence, at a test double whose commit fails. *)
Lemma executeInTransaction_protocol_witness :
  let l := events (executeInTransaction (scripted commit_fails) a_wrapper returns_seven) 0 in
  let opening : list (event string) := [Drv (StartSession 0); Drv (StartTransaction 0)] in
  l = opening ++ [Drv (AbortTransaction 0); Drv (EndSession 0)] \/
  l = opening ++ [Func 0; Drv (AbortTransaction 0); Drv (EndSession 0)] \/
  l = opening ++ [Func 0; Drv (CommitTransaction 0); Drv (EndSession 0)] \/
  l = opening ++ [Func 0; Drv (CommitTransaction 0); Drv (AbortTransaction 0);
                  Drv (EndSession 0)].
Proof.
  apply (executeInTransaction_protocol (scripted commit_fails) a_wrapper
           returns_seven 0 1 0).
  reflexivity.
Defined.

(** A run that returns 7: one call, one commit, no abort. *)
Lemma executeInTransaction_ok_means_committed_witness :
  let l := events (executeInTransaction (scripted all_fine) a_wrapper returns_seven) 0 in
  func_calls l = [0] /\ committed l = [0] /\ aborted l = [] /\
  exists d2 d3 d4,
    scripted all_fine _ (StartTransaction 0) 1 = (d2, Ok tt) /\
    returns_seven 0 d2 = (d3, Ok 7%Z) /\
    scripted all_fine _ (CommitTransaction 0) d3 = (d4, Ok tt).
Proof.
  apply (executeInTransaction_ok_means_committed (scripted all_fine) a_wrapper
           returns_seven 0 1 0 7%Z); reflexivity.
Defined.

(** A driver that refuses to start the transaction. *)
Lemma executeInTransaction_start_failure_witness :
  let l := events (executeInTransaction (scripted start_fails) a_wrapper returns_seven) 0 in
  func_calls l = [] /\ committed l = [] /\ aborted l = [0] /\ ended l = [0] /\
  outcome (executeInTransaction (scripted start_fails) a_wrapper returns_seven) 0
  = match (scripted start_fails _ (AbortTransaction 0) 2).2 with
    | Ok _ => Throw "no transactions"
    | Throw e' => Throw e'
    end.
Proof.
  apply (executeInTransaction_start_failure (scripted start_fails) a_wrapper
           returns_seven 0 1 2 0 "no transactions"); reflexivity.
Defined.

(** A driver that refuses the commit. *)
Lemma executeInTransaction_failed_commit_is_aborted_witness :
  let l := events (executeInTransaction (scripted commit_fails) a_wrapper returns_seven) 0 in
  committed l = [0] /\ aborted l = [0] /\ ended l = [0] /\
  outcome (executeInTransaction (scripted commit_fails) a_wrapper returns_seven) 0
  = match (scripted commit_fails _ (AbortTransaction 0) 4).2 with
    | Ok _ => Throw "commit failed"
    | Throw e' => Throw e'
    end.
Proof.
  apply (executeInTransaction_failed_commit_is_aborted (scripted commit_fails)
           a_wrapper returns_seven 0 1 2 3 4 0 7%Z "commit failed"); reflexivity.
Defined.

(** A driver that has no session to give. *)
Lemma executeInTransaction_without_session_witness :
  let drv := failing_when on_start_session "no session" in
  let l := events (executeInTransaction drv a_wrapper returns_seven) 0 in
  l = [Drv (StartSession 0)] /\
  func_calls l = [] /\ aborted l = [] /\ ended l = [] /\
  outcome (executeInTransaction drv a_wrapper returns_seven) 0 = Throw "no session" /\
  final (executeInTransaction drv a_wrapper returns_seven) 0 = 1.
Proof.
  apply (executeInTransaction_without_session
           (failing_when on_start_session "no session") a_wrapper returns_seven
           0 1 "no session"); reflexivity.
Defined.

(** ** Data operations *)

Section Crud.
Context {D E : Type} (drv : Driver D E) (this : MongoDBWrapper).

(** X10.  When the collection cannot be obtained, each of the nine data
    operations throws that error and sends nothing else to the driver: no
    insert, update, find, delete or count is attempted. *)
Theorem no_collection_no_operation (name : string) (d d1 : D) (e : E)
    (Hc : drv _ (DbCollection (db this) name) d = (d1, Throw e)) :
  (forall doc, fails_before_operation this name d1 e (insertOne drv this name doc) d) /\
  (forall docs, fails_before_operation this name d1 e (insertMany drv this name docs) d) /\
  (forall q u, fails_before_operation this name d1 e (updateOne drv this name q u) d) /\
  (forall q u, fails_before_operation this name d1 e (updateMany drv this name q u) d) /\
  (forall q, fails_before_operation this name d1 e (findOne drv this name q) d) /\
  (forall q, fails_before_operation this name d1 e (find drv this name q) d) /\
  (forall q, fails_before_operation this name d1 e (deleteOne drv this name q) d) /\
  (forall q, fails_before_operation this name d1 e (deleteMany drv this name q) d) /\
  (forall q, fails_before_operation this name d1 e (count drv this name q) d).
Proof.
  unfold fails_before_operation.
  repeat apply conj; intros; unfold_run; rewrite Hc; reflexivity.
Qed.


(** X12.  When the driver refuses an insert, [insertOne] and [insertMany]
    throw the driver's error as it is and build no result. *)
Theorem inserts_hand_on_errors (name : string) (d d1 d2 : D) (col : Collection) (e : E)
    (Hc : drv _ (DbCollection (db this) name) d = (d1, Ok col)) :
  (forall doc, drv _ (InsertOne col doc) d1 = (d2, Throw e) ->
     insertOne drv this name doc d =
       ([Drv (DbCollection (db this) name); Drv (InsertOne col doc)], d2, Throw e)) /\
  (forall docs, drv _ (InsertMany col docs) d1 = (d2, Throw e) ->
     insertMany drv this name docs d =
       ([Drv (DbCollection (db this) name); Drv (InsertMany col docs)], d2, Throw e)).
Proof.
  split; intros x Hi; unfold_run; rewrite Hc; simpl; rewrite Hi; reflexivity.
Qed.

(** X13.  The updates, the deletes and the count look at nothing but the
    filter of the options they are given: two option records with the same
    filter, a missing one counting as the empty one, give the same
    computation, whatever their skip, limit, sort and projection. *)
Theorem only_the_filter_counts (name : string) (q q' : QueryOptions) (u : UpdateFilter)
    (Hf : filter_or_empty q = filter_or_empty q') :
  updateOne drv this name q u = updateOne drv this name q' u /\
  updateMany drv this name q u = updateMany drv this name q' u /\
  deleteOne drv this name q = deleteOne drv this name q' /\
  deleteMany drv this name q = deleteMany drv this name q' /\
  count drv this name q = count drv this name q'.
Proof.
  unfold updateOne, updateMany, deleteOne, deleteMany, count.
  rewrite Hf. repeat split.
Qed.

(** X14.  [findOne] does not look at the limit: option records that differ
    in the limit only give the same computation. *)
Theorem findOne_ignores_limit (name : string) (q q' : QueryOptions)
    (Hf : filter_or_empty q = filter_or_empty q')
    (Hk : qo_skip q = qo_skip q')
    (Hs : qo_sort q = qo_sort q')
    (Hp : qo_projection q = qo_projection q') :
  findOne drv this name q = findOne drv this name q'.
Proof.
  unfold findOne. rewrite Hf, Hk, Hs, Hp. reflexivity.
Qed.

(** X15.  [insertMany] keeps, at every position, every field of the input
    document other than the identifier with its input value. *)
Theorem insertMany_keeps_fields (name : string) (docs : list Document)
    (d d1 d2 : D) (col : Collection) (r : InsertManyResult)
    (Hc : drv _ (DbCollection (db this) name) d = (d1, Ok col))
    (Hi : drv _ (InsertMany col docs) d1 = (d2, Ok r)) :
  exists res : list Document,
    outcome (insertMany drv this name docs) d = Ok res /\
    forall i (doc : Document) k v,
      docs !! i = Some doc -> k <> "_id" -> doc !! k = Some v ->
      exists rdoc : Document, res !! i = Some rdoc /\ rdoc !! k = Some v.
Proof.
  eexists. unfold outcome. rewrite (run_insertMany _ _ _ _ _ _ _ _ _ Hc Hi); simpl.
  split; [reflexivity |].
  intros i doc k v Hd Hk Hv.
  eexists. rewrite list_lookup_imap, Hd; simpl. split; [reflexivity |].
  rewrite lookup_insert_ne; [exact Hv | congruence].
Qed.

(** X16.  Where the driver's answer holds no identifier for a position,
    [insertMany] still returns a document for that position, with an
    identifier field that holds [undefined]. *)
Theorem insertMany_missing_identifier (name : string) (docs : list Document)
    (d d1 d2 : D) (col : Collection) (r : InsertManyResult)
    (i : nat) (doc : Document)
    (Hc : drv _ (DbCollection (db this) name) d = (d1, Ok col))
    (Hi : drv _ (InsertMany col docs) d1 = (d2, Ok r))
    (Hd : docs !! i = Some doc)
    (Hnone : insertedIds r !! i = None) :
  exists (res : list Document) (rdoc : Document),
    outcome (insertMany drv this name docs) d = Ok res /\
    res !! i = Some rdoc /\
    rdoc !! "_id" = Some VUndefined.
Proof.
  do 2 eexists. unfold outcome. rewrite (run_insertMany _ _ _ _ _ _ _ _ _ Hc Hi); simpl.
  split; [reflexivity |].
  rewrite list_lookup_imap, Hd; simpl. split; [reflexivity |].
  unfold js_index. rewrite Hnone; simpl. apply lookup_insert_eq.
Qed.

(** X17.  None of the nine data operations sends a request about the
    client or a session: they do not connect, close, or start, commit,
    abort or end anything. *)
Theorem data_operations_leave_lifecycle_alone (name : string) (q : QueryOptions)
    (u : UpdateFilter) (doc : Document) (docs : list Document) (d : D) :
  lifecycle (events (insertOne drv this name doc) d) = [] /\
  lifecycle (events (insertMany drv this name docs) d) = [] /\
  lifecycle (events (updateOne drv this name q u) d) = [] /\
  lifecycle (events (updateMany drv this name q u) d) = [] /\
  lifecycle (events (findOne drv this name q) d) = [] /\
  lifecycle (events (find drv this name q) d) = [] /\
  lifecycle (events (deleteOne drv this name q) d) = [] /\
  lifecycle (events (deleteMany drv this name q) d) = [] /\
  lifecycle (events (count drv this name q) d) = [].
Proof.
  repeat apply conj; unfold_run; answer_driver drv; reflexivity.
Qed.
End Crud.

(** A database handle the driver gives no collection for. *)
Lemma no_collection_no_operation_witness :
  fails_before_operation a_wrapper "users" 1 "no such collection"
    (deleteMany (failing_when on_collection "no such collection") a_wrapper "users"
       skip_three) 0.
Proof.
  destruct (no_collection_no_operation
              (failing_when on_collection "no such collection") a_wrapper
              "users" 0 1 "no such collection")
    as (_ & _ & _ & _ & _ & _ & _ & Hdel & _); [reflexivity |].
  apply Hdel.
Defined.


(** A driver that refuses every insert. *)
Lemma inserts_hand_on_errors_witness :
  insertOne (failing_when on_insert "duplicate key") a_wrapper "users" doc_plain 0
  = ([Drv (DbCollection 1 "users"); Drv (InsertOne 0 doc_plain)], 2,
     Throw "duplicate key").
Proof.
  destruct (inserts_hand_on_errors (failing_when on_insert "duplicate key")
              a_wrapper "users" 0 1 2 0 "duplicate key") as [Hone _];
    [reflexivity |].
  apply Hone. reflexivity.
Defined.

(** Two option records without a filter that differ in the limit. *)
Lemma only_the_filter_counts_witness :
  deleteMany (scripted all_fine) a_wrapper "users" skip_three
  = deleteMany (scripted all_fine) a_wrapper "users" limit_ten.
Proof.
  destruct (only_the_filter_counts (scripted all_fine) a_wrapper "users"
              skip_three limit_ten ∅) as (_ & _ & _ & Hdel & _); [reflexivity |].
  exact Hdel.
Defined.

Lemma findOne_ignores_limit_witness :
  findOne (scripted all_fine) a_wrapper "users" skip_three
  = findOne (scripted all_fine) a_wrapper "users" limit_ten.
Proof.
  apply (findOne_ignores_limit (scripted all_fine) a_wrapper "users"
           skip_three limit_ten); reflexivity.
Defined.

Lemma insertMany_keeps_fields_witness :
  exists res : list Document,
    outcome (insertMany (scripted all_fine) a_wrapper "users" [doc_plain; doc_own_id]) 0
    = Ok res /\
    forall i (doc : Document) k v,
      [doc_plain; doc_own_id] !! i = Some doc -> k <> "_id" -> doc !! k = Some v ->
      exists rdoc : Document, res !! i = Some rdoc /\ rdoc !! k = Some v.
Proof.
  assert (Hc : scripted all_fine _ (DbCollection (db a_wrapper) "users") 0 = (1, Ok 0))
    by reflexivity.
  assert (Hi : scripted all_fine _ (InsertMany 0 [doc_plain; doc_own_id]) 1
               = (2, Ok {| im_acknowledged := true; insertedCount := 2;
                           insertedIds := {[0 := VObjectId 1; 1 := VNum 5]} |}))
    by (vm_compute; reflexivity).
  exact (insertMany_keeps_fields (scripted all_fine) a_wrapper "users"
           [doc_plain; doc_own_id] 0 1 2 0 _ Hc Hi).
Defined.

(** The second of two documents, at a driver that lists no identifier. *)
Lemma insertMany_missing_identifier_witness :
  exists (res : list Document) (rdoc : Document),
    outcome (insertMany forgetful a_wrapper "users" [doc_plain; doc_own_id]) 0 = Ok res /\
    res !! 1 = Some rdoc /\
    rdoc !! "_id" = Some VUndefined.
Proof.
  apply (insertMany_missing_identifier forgetful a_wrapper "users"
           [doc_plain; doc_own_id] 0 1 2 0
           {| im_acknowledged := false; insertedCount := 0; insertedIds := ∅ |}
           1 doc_own_id); reflexivity.
Defined.

(** ** Who opens and who closes *)

Section OpenClose.
Context {D E T : Type} (drv : Driver D E) (this : MongoDBWrapper).
Context (func : TxFunc D E T).

End OpenClose.

(** ** Chains of builder calls *)

Section Chains.
Implicit Types (h : heap) (q : ref) (o : QueryOptions) (c : builder_call).

Lemma same_field_refl f o : same_field f o o.
Proof. destruct f; reflexivity. Qed.

Lemma same_field_trans f o1 o2 o3 :
  same_field f o1 o2 -> same_field f o2 o3 -> same_field f o1 o3.
Proof. destruct f; simpl; congruence. Qed.

Lemma call_sets_same c o1 o2 :
  call_sets c o1 -> same_field (call_target c) o2 o1 -> call_sets c o2.
Proof. destruct c; simpl; congruence. Qed.

Lemma spread_call_sets c o : call_sets c (spread_call o c).
Proof. destruct c; reflexivity. Qed.

Lemma spread_call_frame c o f :
  f <> call_target c -> same_field f (spread_call o c) o.
Proof. destruct c, f; simpl; intros Hf; try reflexivity; congruence. Qed.

Lemma apply_call_run c h q o :
  h !! q = Some o ->
  apply_call c q h = Some (length h, h ++ [spread_call o c]).
Proof.
  intros Hq.
  destruct c; simpl; unfold withFilter, withSkip, withLimit, withSort,
    withProjection; rewrite Hq; reflexivity.
Qed.

Lemma snoc_lookup_new h o : (h ++ [o]) !! length h = Some o.
Proof. apply list_lookup_middle. reflexivity. Qed.

Lemma snoc_lookup_old h o l x : h !! l = Some x -> (h ++ [o]) !! l = Some x.
Proof.
  intros Hl. rewrite lookup_app_l; [exact Hl | eapply lookup_lt_Some, Hl].
Qed.

Lemma last_call_on_cons f c cs :
  last_call_on f (c :: cs) =
    match last_call_on f cs with
    | Some c' => Some c'
    | None => if bool_decide (call_target c = f) then Some c else None
    end.
Proof.
  unfold last_call_on; simpl.
  destruct (bool_decide (call_target c = f)); [apply last_cons |].
  destruct (last _); reflexivity.
Qed.

(** The record a chain ends with, field by field. *)
Lemma builder_chain_run (cs : list builder_call) h q o :
  h !! q = Some o ->
  exists (r : ref) (h' : heap) (o' : QueryOptions),
    apply_calls cs q h = Some (r, h') /\
    h' !! r = Some o' /\
    (forall f, match last_call_on f cs with
               | Some c => call_sets c o'
               | None => same_field f o' o
               end).
Proof.
  revert h q o. induction cs as [| c cs IH]; intros h q o Hq.
  - exists q, h, o. simpl. auto using same_field_refl.
  - simpl. rewrite (apply_call_run c h q o Hq).
    destruct (IH (h ++ [spread_call o c]) (length h) (spread_call o c)
                (snoc_lookup_new h _)) as (r & h' & o' & Hrun & Hr & Hval).
    exists r, h', o'. split; [exact Hrun |]. split; [exact Hr |].
    intros f. rewrite last_call_on_cons. specialize (Hval f).
    destruct (last_call_on f cs) as [c' |]; [exact Hval |].
    case_bool_decide as Hf.
    + subst f. eapply call_sets_same; [apply spread_call_sets | exact Hval].
    + eapply same_field_trans; [exact Hval |].
      apply spread_call_frame. congruence.
Qed.

(** X19.  A chain of [with*] calls on a record always goes through.  In the
    record it ends with, each field holds the value of the last call of the
    chain that targets it, and the value of the starting record when no call
    targets it.  Every record that was in the store, the starting one
    included, is still there as it was, and the store has grown by one
    record per call. *)
Theorem builder_chain (cs : list builder_call) h q o (Hq : h !! q = Some o) :
  exists (r : ref) (h' : heap) (o' : QueryOptions),
    apply_calls cs q h = Some (r, h') /\
    h' !! r = Some o' /\
    (forall f, match last_call_on f cs with
               | Some c => call_sets c o'
               | None => same_field f o' o
               end) /\
    (forall l x, h !! l = Some x -> h' !! l = Some x) /\
    length h' = length h + length cs.
Proof.
  destruct (builder_chain_run cs h q o Hq) as (r & h' & o' & Hrun & Hr & Hval).
  exists r, h', o'. do 3 (split; [assumption |]).
  clear Hr Hval o'. revert h q o Hq r h' Hrun.
  induction cs as [| c cs IH]; intros h q o Hq r h' Hrun; simpl in Hrun.
  - injection Hrun as <- <-. split; [auto | simpl; lia].
  - rewrite (apply_call_run c h q o Hq) in Hrun.
    destruct (IH _ _ _ (snoc_lookup_new h _) _ _ Hrun) as [Hold Hlen].
    split.
    + intros l x Hl. apply Hold, snoc_lookup_old, Hl.
    + rewrite Hlen, length_app. simpl. lia.
Qed.

Lemma spread_call_commute o a b :
  call_target a <> call_target b ->
  spread_call (spread_call o a) b = spread_call (spread_call o b) a.
Proof. destruct a, b; simpl; intros Hne; try reflexivity; congruence. Qed.

Lemma spread_call_overwrite o a b :
  call_target a = call_target b ->
  spread_call (spread_call o a) b = spread_call o b.
Proof. destruct a, b; simpl; intros Heq; try reflexivity; discriminate. Qed.

Lemma two_calls_run a b h q o :
  h !! q = Some o ->
  apply_calls [a; b] q h =
    Some (S (length h),
          (h ++ [spread_call o a]) ++ [spread_call (spread_call o a) b]).
Proof.
  intros Hq. simpl. rewrite (apply_call_run a h q o Hq).
  rewrite (apply_call_run b _ _ _ (snoc_lookup_new h _)).
  rewrite length_app. simpl. rewrite Nat.add_1_r. reflexivity.
Qed.

Lemma two_calls_final a b h o :
  ((h ++ [spread_call o a]) ++ [spread_call (spread_call o a) b]) !! S (length h)
  = Some (spread_call (spread_call o a) b).
Proof.
  apply list_lookup_middle. rewrite length_app. simpl. lia.
Qed.

(** X20.  Two [with*] calls on different fields can be made in either
    order: the two chains end with equal records. *)
Theorem builder_order_is_irrelevant (a b : builder_call) h q o
    (Hq : h !! q = Some o)
    (Hne : call_target a <> call_target b) :
  exists r1 h1 r2 h2 o',
    apply_calls [a; b] q h = Some (r1, h1) /\
    apply_calls [b; a] q h = Some (r2, h2) /\
    h1 !! r1 = Some o' /\ h2 !! r2 = Some o'.
Proof.
  do 5 eexists.
  split; [apply (two_calls_run a b h q o Hq) |].
  split; [apply (two_calls_run b a h q o Hq) |].
  split; [apply two_calls_final |].
  rewrite (spread_call_commute o a b Hne). apply two_calls_final.
Qed.

(** X21.  Of two [with*] calls on the same field the second wins: the chain
    ends with the record the second call alone would have made. *)
Theorem builder_last_call_wins (a b : builder_call) h q o
    (Hq : h !! q = Some o)
    (Heq : call_target a = call_target b) :
  exists r1 h1 r2 h2 o',
    apply_calls [a; b] q h = Some (r1, h1) /\
    apply_calls [b] q h = Some (r2, h2) /\
    h1 !! r1 = Some o' /\ h2 !! r2 = Some o'.
Proof.
  do 5 eexists.
  split; [apply (two_calls_run a b h q o Hq) |].
  split; [simpl; rewrite (apply_call_run b h q o Hq); reflexivity |].
  split; [apply two_calls_final |].
  rewrite (spread_call_overwrite o a b Heq). apply snoc_lookup_new.
Qed.
End Chains.

(** ** From a built query to the driver *)

Section BuiltQueries.
Context {D E : Type} (drv : Driver D E) (this : MongoDBWrapper).

Lemma all_send_filter_or_empty name u o d d1 col :
  drv _ (DbCollection (db this) name) d = (d1, Ok col) ->
  all_send drv this name u o d (filter_or_empty o).
Proof.
  intros Hc. unfold all_send.
  repeat apply conj; unfold_run; rewrite Hc; simpl;
    answer_driver drv; reflexivity.
Qed.

(** X22.  The filter given to [withFilter] is the filter the driver
    receives: each of the seven filtered operations, called with the record
    [withFilter] returned, sends that filter and no other. *)
Theorem built_filter_reaches_driver (h : heap) (q : ref) (o : QueryOptions)
    (f : Filter) (name : string) (u : UpdateFilter) (d d1 : D) (col : Collection)
    (Hq : h !! q = Some o)
    (Hc : drv _ (DbCollection (db this) name) d = (d1, Ok col)) :
  exists r h' o',
    withFilter q f h = Some (r, h') /\
    h' !! r = Some o' /\
    all_send drv this name u o' d f.
Proof.
  exists (length h), (h ++ [spread_filter o f]), (spread_filter o f).
  split; [unfold withFilter; rewrite Hq; reflexivity |].
  split; [apply list_lookup_middle; reflexivity |].
  apply (all_send_filter_or_empty name u (spread_filter o f) d d1 col Hc).
Qed.

(** X23.  A query made by [createQuery()] alone, and any query built from
    it without [withFilter], selects everything: each of the seven filtered
    operations sends the empty filter, the updates and deletes included. *)
Theorem unfiltered_chain_selects_everything (h : heap) (cs : list builder_call)
    (name : string) (u : UpdateFilter) (d d1 : D) (col : Collection)
    (Hcs : last_call_on FFilter cs = None)
    (Hc : drv _ (DbCollection (db this) name) d = (d1, Ok col)) :
  exists r h' o',
    apply_calls cs (createQuery None h).1 (createQuery None h).2 = Some (r, h') /\
    h' !! r = Some o' /\
    all_send drv this name u o' d ∅.
Proof.
  destruct (builder_chain_run cs (h ++ [empty_options]) (length h) empty_options)
    as (r & h' & o' & Hrun & Hr & Hval); [apply list_lookup_middle; reflexivity |].
  exists r, h', o'. split; [exact Hrun |]. split; [exact Hr |].
  specialize (Hval FFilter). rewrite Hcs in Hval. simpl in Hval.
  replace (∅ : Filter) with (filter_or_empty o').
  - apply (all_send_filter_or_empty name u o' d d1 col Hc).
  - unfold filter_or_empty. rewrite Hval. reflexivity.
Qed.
End BuiltQueries.

(** Limit, filter, limit again, on the second record of a store of two. *)
Lemma builder_chain_witness :
  exists (r : ref) (h' : heap) (o' : QueryOptions),
    apply_calls three_calls 1 two_stores = Some (r, h') /\
    h' !! r = Some o' /\
    (forall f, match last_call_on f three_calls with
               | Some c => call_sets c o'
               | None => same_field f o' some_options
               end) /\
    (forall l x, two_stores !! l = Some x -> h' !! l = Some x) /\
    length h' = length two_stores + length three_calls.
Proof.
  apply (builder_chain three_calls two_stores 1 some_options).
  reflexivity.
Defined.

(** A skip and a limit, in both orders. *)
Lemma builder_order_is_irrelevant_witness :
  exists r1 h1 r2 h2 o',
    apply_calls [CallWithSkip 1%Z; CallWithLimit 2%Z] 1 two_stores = Some (r1, h1) /\
    apply_calls [CallWithLimit 2%Z; CallWithSkip 1%Z] 1 two_stores = Some (r2, h2) /\
    h1 !! r1 = Some o' /\ h2 !! r2 = Some o'.
Proof.
  apply (builder_order_is_irrelevant (CallWithSkip 1%Z) (CallWithLimit 2%Z)
           two_stores 1 some_options); [reflexivity | discriminate].
Defined.

(** Two limits in a row. *)
Lemma builder_last_call_wins_witness :
  exists r1 h1 r2 h2 o',
    apply_calls [CallWithLimit 10%Z; CallWithLimit 2%Z] 1 two_stores = Some (r1, h1) /\
    apply_calls [CallWithLimit 2%Z] 1 two_stores = Some (r2, h2) /\
    h1 !! r1 = Some o' /\ h2 !! r2 = Some o'.
Proof.
  apply (builder_last_call_wins (CallWithLimit 10%Z) (CallWithLimit 2%Z)
           two_stores 1 some_options); reflexivity.
Defined.

(** A filter on the name, given to a record that had another filter. *)
Lemma built_filter_reaches_driver_witness :
  exists r h' o',
    withFilter 1 {["name" := VStr "ann"]} two_stores = Some (r, h') /\
    h' !! r = Some o' /\
    all_send (scripted all_fine) a_wrapper "users" ∅ o' 0 {["name" := VStr "ann"]}.
Proof.
  apply (built_filter_reaches_driver (scripted all_fine) a_wrapper two_stores 1
           some_options {["name" := VStr "ann"]} "users" ∅ 0 1 0); reflexivity.
Defined.

(** [createQuery()] followed by a skip and a limit. *)
Lemma unfiltered_chain_selects_everything_witness :
  exists r h' o',
    apply_calls [CallWithSkip 5%Z; CallWithLimit 1%Z]
      (createQuery None two_stores).1 (createQuery None two_stores).2 = Some (r, h') /\
    h' !! r = Some o' /\
    all_send (scripted all_fine) a_wrapper "users" ∅ o' 0 ∅.
Proof.
  apply (unfiltered_chain_selects_everything (scripted all_fine) a_wrapper
           two_stores [CallWithSkip 5%Z; CallWithLimit 1%Z] "users" ∅ 0 1 0);
    reflexivity.
Defined.
